(** * Digital-Companio: the conversation session core of the web client

    A shallow embedding of [frontend/src/api.ts] (the axios gateway and the
    [ChatInterface] component that follows it in the same file) together
    with the properties of its session, history and authorization logic.

    Modelling choices, all read off the source:
    - a JS string is a [string]; each character is one code unit below 256;
    - [string | null] is [option string], and the JS test [!x] is rendered
      by [truthy]: [null] and the empty string are both falsy;
    - [localStorage] is a finite map from keys to values;
    - React state is a record; a handler reads the values captured by the
      render in which it was created and writes through setter actions,
      [setMessages(prev => ...)] being the only functional update;
    - an [async] handler is a process that performs setter actions and
      suspends at every [await] of a remote call. *)

From Stdlib Require Import Ascii String ZArith.
From stdpp Require Import base option list strings gmap.

Local Open Scope string_scope.
Local Open Scope list_scope.

(** ** Strings and truthiness *)

Module Js.

(** White space and line terminators stripped by [String.prototype.trim],
    restricted to code units below 256: TAB, LF, VT, FF, CR, SP, NBSP. *)
Definition isWhiteSpace (a : ascii) : bool :=
  let n := nat_of_ascii a in
  (Nat.leb 9 n && Nat.leb n 13) || Nat.eqb n 32 || Nat.eqb n 160.

Definition isEmpty (s : string) : bool :=
  match s with EmptyString => true | String _ _ => false end.

Fixpoint trimStart (s : string) : string :=
  match s with
  | EmptyString => EmptyString
  | String a s' => if isWhiteSpace a then trimStart s' else s
  end.

Fixpoint trimEnd (s : string) : string :=
  match s with
  | EmptyString => EmptyString
  | String a s' =>
      let t := trimEnd s' in
      if isWhiteSpace a && isEmpty t then EmptyString else String a t
  end.

Definition trim (s : string) : string := trimEnd (trimStart s).

(** [!!s] on a string: only the empty string is falsy. *)
Definition truthy (s : string) : bool := negb (isEmpty s).

(** [!!x] on a [string | null] or an optional string field. *)
Definition truthy_opt (x : option string) : bool :=
  match x with None => false | Some s => truthy s end.

(** [x === s] for [x : string | null] and [s : string]. *)
Definition strict_eq (x : option string) (s : string) : bool :=
  bool_decide (x = Some s).

End Js.

(** ** Data model *)

Inductive Role := user | model.

(** [interface ChatMessage]: one entry of a fetched history. *)
Record ChatMessage := { cm_role : Role; parts : list string }.

(** [interface ChatSession]. *)
Record ChatSession := { id : string; title : string; created_at : Z }.

(** [interface Message].  [content] is [None] for the JS value
    [undefined], which [h.parts[0]] yields on an empty [parts]. *)
Record Message := { role : Role; content : option string }.

(** Payload of [POST /chat]: [{ response, chat_id, title? }]. *)
Record SendData :=
  { response : string; chat_id : string; sd_title : option string }.

(** What a rejected axios call carries: [error.response?.status]. *)
Record AxiosError := { err_status : option Z }.

#[global] Instance Role_eq_dec : EqDecision Role.
Proof. solve_decision. Defined.
#[global] Instance ChatSession_eq_dec : EqDecision ChatSession.
Proof. solve_decision. Defined.
#[global] Instance Message_eq_dec : EqDecision Message.
Proof. solve_decision. Defined.

(** ** The browser: credential store and location *)

Record Browser := {
  localStorage : gmap string string;
  pathname : string;
  navigations : list string;
  console : list string
}.

Definition removeItem (k : string) (b : Browser) : Browser :=
  {| localStorage := delete k (localStorage b);
     pathname := pathname b;
     navigations := navigations b;
     console := console b |}.

(** [window.location.href = p] for a path of the same origin: the page
    moves to [p], and the assignment is recorded. *)
Definition navigate (p : string) (b : Browser) : Browser :=
  {| localStorage := localStorage b;
     pathname := p;
     navigations := navigations b ++ [p];
     console := console b |}.

Definition console_error (msg : string) (b : Browser) : Browser :=
  {| localStorage := localStorage b;
     pathname := pathname b;
     navigations := navigations b;
     console := console b ++ [msg] |}.

(** ** Remote calls *)

Inductive outcome (R : Type) : Type :=
| Resolved (r : R)
| Rejected (e : AxiosError).
Arguments Resolved {R} r.
Arguments Rejected {R} e.

(** The four calls of api.ts used by [ChatInterface], indexed by the type
    of [response.data]. *)
Inductive api : Type -> Type :=
| createChat (title : string) : api ChatSession
| sendMessage (chatId message : string) : api SendData
| getHistory (chatId : string) : api (list ChatMessage)
| deleteChat (chatId : string) : api unit.

(** What the server answers to one call. *)
Definition remote : Type := forall R, api R -> outcome R.

(** A call as it appears in a trace of issued requests. *)
Definition call : Type := { R : Type & api R }.
Definition Call {R} (c : api R) : call := existT R c.

(** ** Request gateway: the axios response interceptor *)

Module Gateway.

(** The rejection handler of [axios.interceptors.response.use]. *)
Definition onRejected {R} (error : AxiosError) (b : Browser)
  : Browser * outcome R :=
  let b' :=
    if bool_decide (err_status error = Some 401%Z) then
      let currentPath := pathname b in
      if bool_decide (currentPath <> "/login")
         && bool_decide (currentPath <> "/register")
      then navigate "/login" (removeItem "token" b)
      else b
    else b in
  (b', Rejected error).

(** The fulfilment handler: [(response) => response]. *)
Definition onFulfilled {R} (r : R) (b : Browser) : Browser * outcome R :=
  (b, Resolved r).

(** One call through the gateway. *)
Definition dispatch {R} (srv : remote) (c : api R) (b : Browser)
  : Browser * outcome R :=
  match srv R c with
  | Resolved r => onFulfilled r b
  | Rejected e => onRejected e b
  end.

End Gateway.

(** ** The ChatInterface component *)

(** The [useState] cells of [ChatInterface] that the session logic reads
    or writes. *)
Record ChatState := {
  input : string;
  messages : list Message;
  chats : list ChatSession;
  currentChatId : option string;
  loading : bool;
  deleteId : option string
}.

(** The setter calls.  Only [setMessages] is ever given an updater
    function; [SetMessages f] covers [setMessages([])] as a constant [f]. *)
Inductive action :=
| SetInput (s : string)
| SetMessages (f : list Message -> list Message)
| SetChats (l : list ChatSession)
| SetCurrentChatId (x : option string)
| SetLoading (b : bool)
| SetDeleteId (x : option string)
| ConsoleError (msg : string).

Definition set_state (a : action) (s : ChatState) : ChatState :=
  match a with
  | SetInput v =>
      {| input := v; messages := messages s; chats := chats s;
         currentChatId := currentChatId s; loading := loading s;
         deleteId := deleteId s |}
  | SetMessages f =>
      {| input := input s; messages := f (messages s); chats := chats s;
         currentChatId := currentChatId s; loading := loading s;
         deleteId := deleteId s |}
  | SetChats l =>
      {| input := input s; messages := messages s; chats := l;
         currentChatId := currentChatId s; loading := loading s;
         deleteId := deleteId s |}
  | SetCurrentChatId x =>
      {| input := input s; messages := messages s; chats := chats s;
         currentChatId := x; loading := loading s;
         deleteId := deleteId s |}
  | SetLoading b =>
      {| input := input s; messages := messages s; chats := chats s;
         currentChatId := currentChatId s; loading := b;
         deleteId := deleteId s |}
  | SetDeleteId x =>
      {| input := input s; messages := messages s; chats := chats s;
         currentChatId := currentChatId s; loading := loading s;
         deleteId := x |}
  | ConsoleError _ => s
  end.

(** The page: browser state plus component state. *)
Record World := { browser : Browser; ui : ChatState }.

Definition perform (a : action) (w : World) : World :=
  {| browser := match a with
                | ConsoleError msg => console_error msg (browser w)
                | _ => browser w
                end;
     ui := set_state a (ui w) |}.

(** ** Asynchronous handlers as processes *)

(** A handler body: it returns, throws, performs a setter, or awaits a
    remote call and continues with its outcome. *)
Inductive proc (A : Type) : Type :=
| Ret (a : A)
| Throw (e : AxiosError)
| Do (a : action) (k : proc A)
| Await {R : Type} (c : api R) (k : outcome R -> proc A).
Arguments Ret {A} a.
Arguments Throw {A} e.
Arguments Do {A} a k.
Arguments Await {A R} c k.

Fixpoint bind {A B} (p : proc A) (f : A -> proc B) : proc B :=
  match p with
  | Ret a => f a
  | Throw e => Throw e
  | Do a k => Do a (bind k f)
  | Await c k => Await c (fun o => bind (k o) f)
  end.

(** [try { p } catch (e) { h e }]. *)
Fixpoint try_catch {A} (p : proc A) (h : AxiosError -> proc A) : proc A :=
  match p with
  | Ret a => Ret a
  | Throw e => h e
  | Do a k => Do a (try_catch k h)
  | Await c k => Await c (fun o => try_catch (k o) h)
  end.

(** [try { p } finally { f }]: [f] runs on both exits, then the exit of
    [p] is resumed. *)
Fixpoint try_finally {A} (p : proc A) (f : proc unit) : proc A :=
  match p with
  | Ret a => bind f (fun _ => Ret a)
  | Throw e => bind f (fun _ => Throw e)
  | Do a k => Do a (try_finally k f)
  | Await c k => Await c (fun o => try_finally (k o) f)
  end.

(** [await c]: a rejection is thrown at the await. *)
Definition await {R} (c : api R) : proc R :=
  Await c (fun o => match o with
                    | Resolved r => Ret r
                    | Rejected e => Throw e
                    end).

Definition act (a : action) : proc unit := Do a (Ret tt).

(** [proc] with stdpp's monad notations: [x ← p; q] and [p;; q]. *)
#[global] Instance proc_ret : MRet proc := fun A a => Ret a.
#[global] Instance proc_bind : MBind proc := fun A B f p => bind p f.

(** ** The handlers of ChatInterface

    Each handler is built from the state [s] captured by the render that
    created it: [input], [currentChatId], [chats] and [deleteId] below are
    those captured values, not the live cells. *)

Definition user_message (text : string) : Message :=
  {| role := user; content := Some text |}.

Definition model_message (text : string) : Message :=
  {| role := model; content := Some text |}.

(** [(h) => ({ role: h.role, content: h.parts[0] })]. *)
Definition to_message (h : ChatMessage) : Message :=
  {| role := cm_role h; content := head (parts h) |}.

Definition unreachable_text : string :=
  "Error: Could not reach the AI companion.".

Definition selectChat (x : option string) : proc unit :=
  match x with
  | Some i =>
      if negb (Js.truthy i) then Ret tt else
      act (SetCurrentChatId (Some i));;
      act (SetMessages (fun _ => []));;
      try_catch
        (history ← await (getHistory i);
         let mapped := to_message <$> history in
         act (SetMessages (fun _ => mapped)))
        (fun e => act (ConsoleError "Failed to load chat"))
  | None => Ret tt
  end.

Definition handleNewChat : proc unit :=
  act (SetCurrentChatId None);;
  act (SetMessages (fun _ => [])).

Definition handleDeleteClick (i : string) : proc unit :=
  act (SetDeleteId (Some i)).

(** [selectChat(updated[0].id)] is called without [await] as the last
    statement of the [try] block, and [selectChat] catches every rejection
    itself, so running it in sequence is the same process. *)
Definition confirmDeleteChat (s : ChatState) : proc unit :=
  match deleteId s with
  | Some i =>
      if negb (Js.truthy i) then Ret tt else
      act (SetDeleteId None);;
      try_catch
        (await (deleteChat i);;
         let updated :=
           filter (fun c : ChatSession => id c <> i) (chats s) in
         act (SetChats updated);;
         if Js.strict_eq (currentChatId s) i then
           match updated with
           | c :: _ => selectChat (Some (id c))
           | [] => handleNewChat
           end
         else Ret tt)
        (fun e => act (ConsoleError "error"))
  | None => Ret tt
  end.

(** [newChat.title = data.title] under [if (data.title)]. *)
Definition retitle (newChat : ChatSession) (data : SendData) : ChatSession :=
  match sd_title data with
  | Some t =>
      if Js.truthy t
      then {| id := id newChat; title := t;
              created_at := created_at newChat |}
      else newChat
  | None => newChat
  end.

Definition handleSend (s : ChatState) : proc unit :=
  if negb (Js.truthy (Js.trim (input s))) then Ret tt else
  let userMsg := input s in
  let append (m : Message) := SetMessages (fun prev => prev ++ [m]) in
  (* the branch taken under [!currentChatId] *)
  let provision : proc unit :=
    newChat ← await (createChat "New Chat");
    act (SetCurrentChatId (Some (id newChat)));;
    data ← await (sendMessage (id newChat) userMsg);
    act (append (model_message (response data)));;
    act (SetChats (retitle newChat data :: chats s)) in
  act (SetInput "");;
  act (append (user_message userMsg));;
  act (SetLoading true);;
  try_finally
    (try_catch
       match currentChatId s with
       | Some i =>
           if negb (Js.truthy i) then provision else
           data ← await (sendMessage i userMsg);
           act (append (model_message (response data)))
       | None => provision
       end
       (fun error =>
          act (ConsoleError "error");;
          act (append (model_message unreachable_text))))
    (act (SetLoading false)).

(** The user events that enter the session core. *)
Inductive handler :=
| HandleSend
| SelectChat (x : option string)
| HandleNewChat
| HandleDeleteClick (i : string)
| ConfirmDeleteChat.

Definition handler_proc (h : handler) (s : ChatState) : proc unit :=
  match h with
  | HandleSend => handleSend s
  | SelectChat x => selectChat x
  | HandleNewChat => handleNewChat
  | HandleDeleteClick i => handleDeleteClick i
  | ConfirmDeleteChat => confirmDeleteChat s
  end.

(** ** Running a handler against a server

    [run] lets every awaited call settle before anything else happens on
    the page: the handler runs alone.  The calls go through the gateway,
    and the trace lists them in the order they are issued. *)

Record Run (A : Type) := {
  final : World;
  trace : list call;
  settled : outcome A
}.
Arguments final {A} r.
Arguments trace {A} r.
Arguments settled {A} r.

Definition with_browser (b : Browser) (w : World) : World :=
  {| browser := b; ui := ui w |}.

Fixpoint run {A} (srv : remote) (p : proc A) (w : World) : Run A :=
  match p with
  | Ret a => {| final := w; trace := []; settled := Resolved a |}
  | Throw e => {| final := w; trace := []; settled := Rejected e |}
  | Do a k => run srv k (perform a w)
  | Await c k =>
      let d := Gateway.dispatch srv c (browser w) in
      let r := run srv (k (snd d)) (with_browser (fst d) w) in
      {| final := final r; trace := Call c :: trace r;
         settled := settled r |}
  end.

(** A user event handled to completion on page [w]. *)
Definition exec (srv : remote) (h : handler) (w : World) : Run unit :=
  run srv (handler_proc h (ui w)) w.

(** ** Interleaving: the event loop

    Between two awaits a handler runs without interruption; at an await it
    is parked with its continuation until the response is delivered.
    Other events may be handled in between. *)

Record task := {
  t_R : Type;
  t_call : api t_R;
  t_k : outcome t_R -> proc unit
}.

(** Run a process up to its first await. *)
Fixpoint advance (p : proc unit) (w : World) : World * option task :=
  match p with
  | Ret _ => (w, None)
  | Throw _ => (w, None)
  | Do a k => advance k (perform a w)
  | Await c k => (w, Some {| t_call := c; t_k := k |})
  end.

(** The await at which a process parks, whatever the state. *)
Fixpoint suspended (p : proc unit) : option task :=
  match p with
  | Ret _ => None
  | Throw _ => None
  | Do _ k => suspended k
  | Await c k => Some {| t_call := c; t_k := k |}
  end.

Record Sys := { world : World; pending : list task }.

Inductive event :=
| Click (h : handler)              (* a user event starts a handler *)
| Settle (n : nat) (srv : remote). (* the n-th pending call is answered *)

Definition step (e : event) (sys : Sys) : Sys :=
  match e with
  | Click h =>
      let r := advance (handler_proc h (ui (world sys))) (world sys) in
      {| world := fst r; pending := pending sys ++ option_list (snd r) |}
  | Settle n srv =>
      match pending sys !! n with
      | Some t =>
          let d := Gateway.dispatch srv (t_call t) (browser (world sys)) in
          let r := advance (t_k t (snd d))
                     (with_browser (fst d) (world sys)) in
          {| world := fst r;
             pending := delete n (pending sys) ++ option_list (snd r) |}
      | None => sys
      end
  end.

Definition steps (es : list event) (sys : Sys) : Sys :=
  foldl (fun s e => step e s) sys es.

Definition boot (w : World) : Sys := {| world := w; pending := [] |}.

(** ** Predicates used in the statements *)

(** The send is one that reaches the server and comes back: either a
    session is active and [sendMessage] resolves for it, or none is, and
    [createChat] and then [sendMessage] for the new id both resolve. *)
Definition send_succeeds (srv : remote) (s : ChatState) (data : SendData)
  : Prop :=
  if Js.truthy_opt (currentChatId s) then
    exists i, currentChatId s = Some i /\
              srv _ (sendMessage i (input s)) = Resolved data
  else
    exists newChat,
      srv _ (createChat "New Chat") = Resolved newChat /\
      srv _ (sendMessage (id newChat) (input s)) = Resolved data.

(** The send fails: one of its remote calls is rejected. *)
Definition send_fails (srv : remote) (s : ChatState) : Prop :=
  if Js.truthy_opt (currentChatId s) then
    exists i e, currentChatId s = Some i /\
                srv _ (sendMessage i (input s)) = Rejected e
  else
    (exists e, srv _ (createChat "New Chat") = Rejected e) \/
    (exists newChat e,
        srv _ (createChat "New Chat") = Resolved newChat /\
        srv _ (sendMessage (id newChat) (input s)) = Rejected e).

(** The ids of the sessions whose history is delivered, in delivery
    order, when the pending fetches for [ids] are answered at the
    positions [ks] of the pending queue. *)
Fixpoint delivered (ids : list string) (ks : list nat) : list string :=
  match ks with
  | [] => []
  | k :: ks' =>
      match ids !! k with
      | Some i => i :: delivered (delete k ids) ks'
      | None => delivered ids ks'
      end
  end.

(** The parked remainder of [selectChat(i)]: the fetch and what follows
    its outcome. *)
Definition select_task (i : string) : task :=
  {| t_call := getHistory i;
     t_k := fun o =>
       try_catch
         (history ← match o with
                    | Resolved r => Ret r
                    | Rejected e => Throw e
                    end;
          act (SetMessages (fun _ => to_message <$> history)))
         (fun e => act (ConsoleError "Failed to load chat")) |}.

(** Every id of the list passes the test [!id]. *)
Definition ids_nonempty (l : list ChatSession) : Prop :=
  Forall (fun c => Js.truthy (id c) = true) l.

(** A burst of selections, and a burst of deliveries by one server. *)
Definition clicks (ids : list string) : list event :=
  (fun i => Click (SelectChat (Some i))) <$> ids.

Definition settles (srv : remote) (ks : list nat) : list event :=
  (fun k => Settle k srv) <$> ks.

(** The event loop right after process [p] has run to its first await. *)
Definition parked (p : proc unit) (w : World) : Sys :=
  {| world := fst (advance p w);
     pending := option_list (snd (advance p w)) |}.

(** ** Sample pages and servers *)

Module Sample.

Definition chat (i t : string) : ChatSession :=
  {| id := i; title := t; created_at := 0 |}.

Definition history_of (i : string) : list ChatMessage :=
  if bool_decide (i = "A") then
    [ {| cm_role := user; parts := ["question in A"] |};
      {| cm_role := model; parts := ["answer in A"] |} ]
  else if bool_decide (i = "B") then
    [ {| cm_role := user; parts := ["question in B"] |} ]
  else [].

(** A server that answers every call. *)
Definition up : remote := fun R c =>
  match c in api R return outcome R with
  | createChat t => Resolved (chat "S1" t)
  | sendMessage i m =>
      Resolved {| response := "reply"; chat_id := i;
                  sd_title := Some "Greetings" |}
  | getHistory i => Resolved (history_of i)
  | deleteChat i => Resolved tt
  end.

(** A server that rejects every call with the given status. *)
Definition failing (status : option Z) : remote := fun R c =>
  Rejected {| err_status := status |}.

(** A server that creates sessions but rejects everything else. *)
Definition creates_only : remote := fun R c =>
  match c in api R return outcome R with
  | createChat t => Resolved (chat "S1" t)
  | _ => Rejected {| err_status := None |}
  end.

Definition signed_in (path : string) : Browser :=
  {| localStorage := {[ "token" := "abc" ]}; pathname := path;
     navigations := []; console := [] |}.

Definition page (text : string) (cur : option string)
  (l : list ChatSession) (del : option string) : World :=
  {| browser := signed_in "/";
     ui := {| input := text;
              messages := [user_message "earlier"; model_message "before"];
              chats := l; currentChatId := cur; loading := false;
              deleteId := del |} |}.

Definition sessions : list ChatSession :=
  [chat "A" "Algebra"; chat "B" "Biology"; chat "C" "Chemistry"].

(** Select A, then B; the fetch for B is answered first, the fetch for A
    last. *)
Definition rapid_selection : list event :=
  [Click (SelectChat (Some "A")); Click (SelectChat (Some "B"));
   Settle 1 up; Settle 0 up].

End Sample.

(** ** Credential store, request interceptor and route guard *)

(** [localStorage.getItem] and [localStorage.setItem]. *)
Definition getItem (k : string) (b : Browser) : option string :=
  localStorage b !! k.

Definition setItem (k v : string) (b : Browser) : Browser :=
  {| localStorage := <[k := v]> (localStorage b);
     pathname := pathname b;
     navigations := navigations b;
     console := console b |}.

Module Request.

(** The request handler of [axios.interceptors.request.use], on
    [config.headers]. *)
Definition onRequest (headers : gmap string string) (b : Browser)
  : gmap string string :=
  let token := getItem "token" b in
  match token with
  | Some t =>
      if Js.truthy t
      then <["Authorization" := String.append "Bearer " t]> headers
      else headers
  | None => headers
  end.

End Request.

(** What [ProtectedRoute] renders. *)
Inductive element :=
| Children
| NavigateTo (to : string).

Definition ProtectedRoute (b : Browser) : element :=
  let token := getItem "token" b in
  if negb (Js.truthy_opt token) then NavigateTo "/login" else Children.

(** [handleLogout]; the router's [navigate] moves the page like an
    assignment to the location does. *)
Definition handleLogout (b : Browser) : Browser :=
  navigate "/login" (removeItem "token" b).

(** The mount effect that consumes the one-shot [loginSuccess] flag;
    [toast] is the [showSuccessToast] cell. *)
Definition loginSuccessEffect (toast : bool) (b : Browser) : bool * Browser :=
  let justLoggedIn := getItem "loginSuccess" b in
  if Js.truthy_opt justLoggedIn
  then (true, removeItem "loginSuccess" b)
  else (toast, b).

(** An outcome as the caller sees it after the response interceptor. *)
Definition through {R} (o : outcome R) (b : Browser) : Browser * outcome R :=
  match o with
  | Resolved r => Gateway.onFulfilled r b
  | Rejected e => Gateway.onRejected e b
  end.

(** ** The login page *)

Module Login.

(** Payload of [POST /token] and what a rejection of it carries:
    [err.response?.status] and [err.response?.data?.detail]. *)
Record Data := { access_token : string }.
Record Error := { status : option Z; detail : option string }.

Inductive answer :=
| Accepted (data : Data)
| Refused (err : Error).

(** The server side of [login(username, password)]. *)
Definition server : Type := string -> string -> answer.

(** The [useState] cells of [Login]. *)
Record State := {
  email : string;
  password : string;
  error : string;
  loading : bool
}.

Record Page := { env : Browser; form : State }.

(** api.ts [login]: the call goes through the response interceptor. *)
Definition login (srv : server) (username password : string) (b : Browser)
  : Browser * answer :=
  match srv username password with
  | Accepted data => (b, Accepted data)
  | Refused err =>
      (fst (Gateway.onRejected (R := Data) {| err_status := status err |} b),
       Refused err)
  end.

(** [err.response?.data?.detail || 'Login failed']. *)
Definition message_of (err : Error) : string :=
  match detail err with
  | Some d => if Js.truthy d then d else "Login failed"
  | None => "Login failed"
  end.

Definition handleLogin (srv : server) (p : Page) : Page :=
  (* setLoading(true); setError('') *)
  let f := {| email := email (form p); password := password (form p);
              error := ""; loading := true |} in
  let attempt := login srv (email f) (password f) (env p) in
  (* finally: setLoading(false) *)
  let done (err : string) :=
    {| email := email f; password := password f;
       error := err; loading := false |} in
  match snd attempt with
  | Accepted data =>
      let b1 := setItem "token" (access_token data) (fst attempt) in
      let b2 := setItem "loginSuccess" "true" b1 in
      {| env := navigate "/" b2; form := done (error f) |}
  | Refused err =>
      {| env := fst attempt; form := done (message_of err) |}
  end.

End Login.

(** ** Mounting ChatInterface: the [init] effect *)

Record User := { full_name : string }.

(** What the server answers to [getMe] and [getChats]. *)
Record InitServer := {
  getMe : outcome User;
  getChats : outcome (list ChatSession)
}.

(** The page with the [userData] cell and the list of calls issued. *)
Record Shell := {
  page : World;
  userData : option User;
  requested : list string
}.

(** The [catch] of [init]: only an unauthorized failure redirects. *)
Definition init_catch (err : AxiosError) (w : World) : World :=
  if bool_decide (err_status err = Some 401%Z)
  then with_browser (navigate "/login" (removeItem "token" (browser w))) w
  else w.

Definition init (srv : InitServer) (sh : Shell) : Shell :=
  let w := page sh in
  let me := through (getMe srv) (browser w) in
  match snd me with
  | Resolved u =>
      let listed := through (getChats srv) (fst me) in
      match snd listed with
      | Resolved userChats =>
          {| page := fst (advance handleNewChat
                            (perform (SetChats userChats)
                               (with_browser (fst listed) w)));
             userData := Some u;
             requested := requested sh ++ ["getMe"; "getChats"] |}
      | Rejected err =>
          {| page := init_catch err (with_browser (fst listed) w);
             userData := Some u;
             requested := requested sh ++ ["getMe"; "getChats"] |}
      end
  | Rejected err =>
      {| page := init_catch err (with_browser (fst me) w);
         userData := userData sh;
         requested := requested sh ++ ["getMe"] |}
  end.

(** ** What the header shows *)

(** [chats.find(c => c.id === currentChatId)?.title || 'Study Companion']. *)
Definition header_title (s : ChatState) : string :=
  match List.find (fun c => Js.strict_eq (currentChatId s) (id c)) (chats s)
  with
  | Some c => if Js.truthy (title c) then title c else "Study Companion"
  | None => "Study Companion"
  end.

(** [handleInputResize], as far as the state goes: [setInput(e.target.value)]. *)
Definition handleInputResize (value : string) (w : World) : World :=
  perform (SetInput value) w.

(** White space only, the inputs that [trim] empties. *)
Definition blank (s : string) : bool :=
  forallb Js.isWhiteSpace (list_ascii_of_string s).

(** ** Keyboard *)

(** The fields of the key event that [handleKeyDown] reads. *)
Record KeyboardEvent := { key : string; shiftKey : bool }.

(** A run in which nothing happens. *)
Definition idle (w : World) : Run unit :=
  {| final := w; trace := []; settled := Resolved tt |}.

(** [handleKeyDown]: whether [preventDefault] was called, and the run of
    [handleSend] it starts, if any. *)
Definition handleKeyDown (e : KeyboardEvent) (srv : remote) (w : World)
  : bool * Run unit :=
  if bool_decide (key e = "Enter") then
    if negb (shiftKey e) then (true, exec srv HandleSend w)
    else (false, idle w)
  else (false, idle w).

(** The call a parked task is waiting for. *)
Definition issued (t : task) : call := Call (t_call t).

(** ** More sample data *)

Module Demo.

Definition anonymous (path : string) : Browser :=
  {| localStorage := ∅; pathname := path; navigations := []; console := [] |}.

Definition form : Login.State :=
  {| Login.email := "ada@example.com"; Login.password := "secret";
     Login.error := "stale error"; Login.loading := false |}.

Definition accepts : Login.server := fun _ _ =>
  Login.Accepted {| Login.access_token := "tok42" |}.

Definition refuses (st : option Z) (d : option string) : Login.server :=
  fun _ _ => Login.Refused {| Login.status := st; Login.detail := d |}.

Definition fresh_shell (b : Browser) : Shell :=
  {| page := {| browser := b;
                ui := {| input := ""; messages := []; chats := [];
                         currentChatId := None; loading := false;
                         deleteId := None |} |};
     userData := None;
     requested := [] |}.

Definition listing : InitServer :=
  {| getMe := Resolved {| full_name := "Ada" |};
     getChats := Resolved Sample.sessions |}.

Definition unauthorized : InitServer :=
  {| getMe := Rejected {| err_status := Some 401%Z |};
     getChats := Resolved Sample.sessions |}.

End Demo.

(** ** Basic facts *)

Lemma truthy_trim_empty (s : string) :
  Js.trim s = "" -> Js.truthy (Js.trim s) = false.
Proof. now intros ->. Qed.

Lemma suspended_selectChat (i : string) :
  Js.truthy i = true -> suspended (selectChat (Some i)) = Some (select_task i).
Proof. intros H. unfold selectChat. now rewrite H. Qed.

(** [selectChat] never rejects: its [try] covers everything that can. *)
Lemma selectChat_never_rejects (srv : remote) (x : option string) (w : World) :
  settled (run srv (selectChat x) w) = Resolved tt.
Proof.
  destruct x as [i|]; [|reflexivity].
  unfold selectChat. destruct (Js.truthy i); [|reflexivity].
  cbn. unfold Gateway.dispatch.
  destruct (srv _ (getHistory i)); reflexivity.
Qed.

Ltac answered H := unfold Gateway.dispatch; rewrite H; cbn.

(** ** Request gateway *)

(** C4.  A rejected response with status 401 is always handed back to the
    caller as the same rejection.  Away from /login and /register the
    token is removed from storage and the page is sent to /login; on
    /login or /register the browser state is untouched: nothing is
    removed and no navigation is made. *)
Theorem unauthorized_response_handling
  (srv : remote) (R : Type) (c : api R) (error : AxiosError) (b : Browser) :
  srv R c = Rejected error ->
  err_status error = Some 401%Z ->
  let r := Gateway.dispatch srv c b in
  snd r = Rejected error /\
  (pathname b <> "/login" -> pathname b <> "/register" ->
     localStorage (fst r) = delete "token" (localStorage b) /\
     localStorage (fst r) !! "token" = None /\
     pathname (fst r) = "/login" /\
     navigations (fst r) = navigations b ++ ["/login"]) /\
  (pathname b = "/login" \/ pathname b = "/register" -> fst r = b).
Proof.
  intros Hsrv Hst. unfold Gateway.dispatch. rewrite Hsrv.
  unfold Gateway.onRejected. rewrite Hst. cbn.
  split; [reflexivity|]. split.
  - intros Hl Hr.
    rewrite (bool_decide_eq_true_2 _ Hl), (bool_decide_eq_true_2 _ Hr). cbn.
    split; [reflexivity|]. split; [apply lookup_delete_eq|].
    split; reflexivity.
  - intros [Hp|Hp]; rewrite Hp; reflexivity.
Qed.

Lemma unauthorized_response_handling_witness :
  let r := Gateway.dispatch (Sample.failing (Some 401%Z)) (getHistory "A")
             (Sample.signed_in "/") in
  snd r = Rejected {| err_status := Some 401%Z |} /\
  localStorage (fst r) !! "token" = None /\
  pathname (fst r) = "/login" /\
  navigations (fst r) = ["/login"].
Proof.
  destruct (unauthorized_response_handling (Sample.failing (Some 401%Z)) _
              (getHistory "A") {| err_status := Some 401%Z |}
              (Sample.signed_in "/"))
    as (Hrej & Hchat & _); [reflexivity | reflexivity |].
  destruct Hchat as (_ & Htok & Hpath & Hnav); [discriminate | discriminate |].
  split; [exact Hrej|]. split; [exact Htok|]. split; [exact Hpath | exact Hnav].
Defined.

(** On the login page the same rejection leaves storage and location as
    they are. *)
Lemma unauthorized_on_login_keeps_token :
  let r := Gateway.dispatch (Sample.failing (Some 401%Z)) (getHistory "A")
             (Sample.signed_in "/login") in
  r = (Sample.signed_in "/login", Rejected {| err_status := Some 401%Z |}).
Proof. reflexivity. Qed.

(** X4.  Any other rejection, and any resolved response, passes through
    the gateway without touching the browser. *)
Lemma other_responses_pass_through
  (srv : remote) (R : Type) (c : api R) (b : Browser) :
  (forall e, srv R c = Rejected e -> err_status e <> Some 401%Z) ->
  Gateway.dispatch srv c b = (b, srv R c).
Proof.
  intros H. unfold Gateway.dispatch.
  destruct (srv R c) as [r|e] eqn:Hsrv; [reflexivity|].
  unfold Gateway.onRejected.
  now rewrite (bool_decide_eq_false_2 _ (H e eq_refl)).
Qed.

(** ** Conversation synchronizer: [handleSend] *)

(** C10.  When the trimmed input is empty, [handleSend] changes nothing on
    the page (no message, input kept, loading flag untouched) and issues
    no remote call. *)
Theorem blank_send_is_noop (srv : remote) (w : World) :
  Js.trim (input (ui w)) = "" ->
  exec srv HandleSend w
  = {| final := w; trace := []; settled := Resolved tt |}.
Proof.
  intros H. unfold exec, handler_proc, handleSend.
  rewrite (truthy_trim_empty _ H). reflexivity.
Qed.

Lemma blank_send_is_noop_witness :
  let w := Sample.page "   " None Sample.sessions None in
  exec Sample.up HandleSend w
  = {| final := w; trace := []; settled := Resolved tt |}.
Proof. apply (blank_send_is_noop Sample.up); reflexivity. Defined.

(** C1 (as the code has it).  A send started with no active session
    ([currentChatId] null, trimmed input non-empty) issues [createChat]
    exactly once.  If it returns a session, [sendMessage] is issued exactly
    once after it, for the returned id, whether it then resolves or
    rejects, and the returned id is the active session id afterwards.  If
    [createChat] is rejected, [sendMessage] is not issued and no session
    becomes active. *)
Theorem send_without_session_provisioning (srv : remote) (w : World) :
  currentChatId (ui w) = None ->
  Js.truthy (Js.trim (input (ui w))) = true ->
  let r := exec srv HandleSend w in
  match srv _ (createChat "New Chat") with
  | Resolved newChat =>
      trace r = [Call (createChat "New Chat");
                 Call (sendMessage (id newChat) (input (ui w)))] /\
      currentChatId (ui (final r)) = Some (id newChat)
  | Rejected _ =>
      trace r = [Call (createChat "New Chat")] /\
      currentChatId (ui (final r)) = None
  end.
Proof.
  intros Hcur Hin. unfold exec, handler_proc, handleSend.
  rewrite Hin, Hcur. cbn.
  destruct (srv _ (createChat "New Chat")) as [newChat|e] eqn:Hcreate.
  - answered Hcreate. unfold Gateway.dispatch.
    destruct (srv _ (sendMessage (id newChat) (input (ui w)))); cbn;
      split; reflexivity.
  - answered Hcreate. now rewrite Hcur.
Qed.

Lemma send_without_session_provisioning_witness :
  let r := exec Sample.up HandleSend (Sample.page "Hello" None [] None) in
  trace r = [Call (createChat "New Chat"); Call (sendMessage "S1" "Hello")] /\
  currentChatId (ui (final r)) = Some "S1".
Proof.
  apply (send_without_session_provisioning Sample.up
           (Sample.page "Hello" None [] None));
    reflexivity.
Defined.

(** C1 (as stated) fails: with no active session and the input Hello, on
    a server that rejects [createChat], the only call issued is
    [createChat]; no [sendMessage] follows and no id becomes active. *)
Lemma send_without_session_create_rejected :
  let w := Sample.page "Hello" None [] None in
  let r := exec (Sample.failing None) HandleSend w in
  currentChatId (ui w) = None /\
  Js.truthy (Js.trim (input (ui w))) = true /\
  trace r = [Call (createChat "New Chat")] /\
  currentChatId (ui (final r)) = None.
Proof. cbn zeta. repeat split; reflexivity. Qed.

(** A send against an active session never calls [createChat]. *)
Lemma send_with_session_calls_once (srv : remote) (w : World) (i : string) :
  currentChatId (ui w) = Some i ->
  Js.truthy i = true ->
  Js.truthy (Js.trim (input (ui w))) = true ->
  trace (exec srv HandleSend w) = [Call (sendMessage i (input (ui w)))].
Proof.
  intros Hcur Hi Hin. unfold exec, handler_proc, handleSend.
  rewrite Hin, Hcur, Hi. cbn. unfold Gateway.dispatch.
  destruct (srv _ (sendMessage i (input (ui w)))); reflexivity.
Qed.

(** C8.  After a send that succeeds, on either path, the view is the view
    from before the send followed by the user's message and then the
    assistant's reply as a model-role message. *)
Theorem successful_send_appends_pair
  (srv : remote) (w : World) (data : SendData) :
  Js.truthy (Js.trim (input (ui w))) = true ->
  send_succeeds srv (ui w) data ->
  messages (ui (final (exec srv HandleSend w)))
  = messages (ui w)
      ++ [user_message (input (ui w)); model_message (response data)].
Proof.
  intros Hin Hok. unfold exec, handler_proc, handleSend. rewrite Hin.
  unfold send_succeeds in Hok.
  destruct (currentChatId (ui w)) as [i|] eqn:Hcur; cbn in Hok;
    [destruct (Js.truthy i) eqn:Hi|].
  - destruct Hok as (i' & [= <-] & Hsend).
    cbn. answered Hsend. now rewrite <- app_assoc.
  - destruct Hok as (newChat & Hcreate & Hsend).
    cbn. answered Hcreate. answered Hsend. now rewrite <- app_assoc.
  - destruct Hok as (newChat & Hcreate & Hsend).
    cbn. answered Hcreate. answered Hsend. now rewrite <- app_assoc.
Qed.

Lemma successful_send_appends_pair_witness :
  messages (ui (final (exec Sample.up HandleSend
                         (Sample.page "Hello" (Some "A") Sample.sessions None))))
  = [user_message "earlier"; model_message "before";
     user_message "Hello"; model_message "reply"].
Proof.
  apply (successful_send_appends_pair Sample.up
           (Sample.page "Hello" (Some "A") Sample.sessions None)
           {| response := "reply"; chat_id := "A";
              sd_title := Some "Greetings" |}).
  - reflexivity.
  - exists "A". split; reflexivity.
Defined.

(** C5.  After a send whose remote call is rejected ([createChat] or
    [sendMessage]), the view is the view from before the send, then the
    user's message, then exactly one model-role message with the
    unreachable-service text; the loading flag is cleared and the session
    list is what it was. *)
Theorem failed_send_keeps_user_message (srv : remote) (w : World) :
  Js.truthy (Js.trim (input (ui w))) = true ->
  send_fails srv (ui w) ->
  let s' := ui (final (exec srv HandleSend w)) in
  messages s'
  = messages (ui w)
      ++ [user_message (input (ui w)); model_message unreachable_text] /\
  loading s' = false /\
  chats s' = chats (ui w).
Proof.
  intros Hin Hko. unfold exec, handler_proc, handleSend. rewrite Hin.
  unfold send_fails in Hko.
  destruct (currentChatId (ui w)) as [i|] eqn:Hcur; cbn in Hko;
    [destruct (Js.truthy i) eqn:Hi|].
  - destruct Hko as (i' & e & [= <-] & Hsend).
    cbn. answered Hsend. now rewrite <- app_assoc.
  - destruct Hko as [(e & Hcreate)|(newChat & e & Hcreate & Hsend)]; cbn.
    + answered Hcreate. now rewrite <- app_assoc.
    + answered Hcreate. answered Hsend. now rewrite <- app_assoc.
  - destruct Hko as [(e & Hcreate)|(newChat & e & Hcreate & Hsend)]; cbn.
    + answered Hcreate. now rewrite <- app_assoc.
    + answered Hcreate. answered Hsend. now rewrite <- app_assoc.
Qed.

Lemma failed_send_keeps_user_message_witness :
  let s' := ui (final (exec Sample.creates_only HandleSend
                         (Sample.page "Hello" None Sample.sessions None))) in
  messages s'
  = [user_message "earlier"; model_message "before";
     user_message "Hello"; model_message unreachable_text] /\
  loading s' = false /\
  chats s' = Sample.sessions.
Proof.
  apply (failed_send_keeps_user_message Sample.creates_only
           (Sample.page "Hello" None Sample.sessions None)).
  - reflexivity.
  - right. exists (Sample.chat "S1" "New Chat"), {| err_status := None |}.
    split; reflexivity.
Defined.

(** The provisioning path records the title carried by the response: the
    new session is put at the head of the list under that title. *)
Lemma provisioning_send_records_title
  (srv : remote) (w : World) (newChat : ChatSession) (data : SendData)
  (t : string) :
  Js.truthy (Js.trim (input (ui w))) = true ->
  currentChatId (ui w) = None ->
  srv _ (createChat "New Chat") = Resolved newChat ->
  srv _ (sendMessage (id newChat) (input (ui w))) = Resolved data ->
  sd_title data = Some t -> Js.truthy t = true ->
  chats (ui (final (exec srv HandleSend w)))
  = {| id := id newChat; title := t; created_at := created_at newChat |}
      :: chats (ui w).
Proof.
  intros Hin Hcur Hcreate Hsend Ht Htt. unfold exec, handler_proc, handleSend.
  rewrite Hin, Hcur. cbn. answered Hcreate. answered Hsend.
  unfold retitle. now rewrite Ht, Htt.
Qed.

(** The path for an active session never writes the session list, so a
    title carried by the response is not recorded. *)
Lemma send_with_session_keeps_chats (srv : remote) (w : World) (i : string) :
  currentChatId (ui w) = Some i ->
  Js.truthy i = true ->
  chats (ui (final (exec srv HandleSend w))) = chats (ui w).
Proof.
  intros Hcur Hi. unfold exec, handler_proc, handleSend.
  destruct (Js.truthy (Js.trim (input (ui w)))); [|reflexivity].
  rewrite Hcur, Hi. cbn. unfold Gateway.dispatch.
  destruct (srv _ (sendMessage i (input (ui w)))); reflexivity.
Qed.

(** C3.  With session A active and listed under the title Algebra, a send
    that succeeds with a response carrying the title Greetings leaves the
    list as it was: A is still titled Algebra. *)
Theorem title_dropped_on_existing_session :
  let w := Sample.page "Hello" (Some "A") Sample.sessions None in
  let data := {| response := "reply"; chat_id := "A";
                 sd_title := Some "Greetings" |} in
  let s' := ui (final (exec Sample.up HandleSend w)) in
  send_succeeds Sample.up (ui w) data /\
  currentChatId s' = Some "A" /\
  chats s' = [Sample.chat "A" "Algebra"; Sample.chat "B" "Biology";
              Sample.chat "C" "Chemistry"].
Proof.
  split; [exists "A"; split; reflexivity|]. split; reflexivity.
Qed.

(** ** History loader: [selectChat] *)

(** C7.  Selecting a session id that passes the guard replaces the view:
    when the fetch resolves the view is exactly the fetched messages,
    whatever it held before; when the fetch is rejected the view is empty.
    The session list is not written in either case. *)
Theorem select_replaces_view (srv : remote) (w : World) (i : string) :
  Js.truthy i = true ->
  let s' := ui (final (exec srv (SelectChat (Some i)) w)) in
  (forall history, srv _ (getHistory i) = Resolved history ->
     messages s' = to_message <$> history) /\
  (forall e, srv _ (getHistory i) = Rejected e ->
     messages s' = [] /\ chats s' = chats (ui w)) /\
  chats s' = chats (ui w) /\
  currentChatId s' = Some i.
Proof.
  intros Hi. unfold exec, handler_proc, selectChat. rewrite Hi. cbn.
  unfold Gateway.dispatch.
  destruct (srv _ (getHistory i)) as [history|e]; cbn.
  - split; [now intros ? [= <-]|]. split; [discriminate|]. now split.
  - split; [discriminate|]. split; [intros _ _|]; now split.
Qed.

Lemma select_replaces_view_witness :
  let s' := ui (final (exec Sample.up (SelectChat (Some "B"))
                         (Sample.page "" (Some "A") Sample.sessions None))) in
  messages s' = [user_message "question in B"] /\
  chats s' = Sample.sessions /\
  currentChatId s' = Some "B".
Proof.
  destruct (select_replaces_view Sample.up
              (Sample.page "" (Some "A") Sample.sessions None) "B")
    as (Hok & _ & Hl & Hcur); [reflexivity|].
  split; [exact (Hok (Sample.history_of "B") eq_refl)|].
  split; [exact Hl | exact Hcur].
Defined.

(** X16.  Selecting a null id, or the empty string, is a no-op: the view,
    the active session id and the list stay as they are and no call is
    issued. *)
Lemma select_falsy_is_noop (srv : remote) (w : World) (x : option string) :
  Js.truthy_opt x = false ->
  exec srv (SelectChat x) w
  = {| final := w; trace := []; settled := Resolved tt |}.
Proof.
  intros Hx. unfold exec, handler_proc, selectChat.
  destruct x as [i|]; [|reflexivity]. cbn in Hx. now rewrite Hx.
Qed.

(** ** Session registry: [confirmDeleteChat] *)

Lemma filter_drops_id (i : string) (l : list ChatSession) :
  Forall (fun c => id c <> i) (filter (fun c : ChatSession => id c <> i) l).
Proof.
  apply Forall_forall. intros c Hc.
  now apply list_elem_of_filter in Hc as [Hne _].
Qed.

Lemma ids_nonempty_filter (i : string) (l : list ChatSession) :
  ids_nonempty l ->
  ids_nonempty (filter (fun c : ChatSession => id c <> i) l).
Proof.
  unfold ids_nonempty. rewrite !Forall_forall. intros H c Hc.
  apply list_elem_of_filter in Hc as [_ Hin]. now apply H.
Qed.

(** C6.  After a delete that the server accepts, the list is the old list
    without the entries of the deleted id.  If that id was the active one,
    the first remaining session becomes active when there is one, and
    otherwise there is no active session and the view is empty.  If it
    was not the active one, the active session id is what it was. *)
Theorem delete_selects_successor (srv : remote) (w : World) (i : string) :
  deleteId (ui w) = Some i ->
  Js.truthy i = true ->
  ids_nonempty (chats (ui w)) ->
  srv _ (deleteChat i) = Resolved tt ->
  let updated := filter (fun c : ChatSession => id c <> i) (chats (ui w)) in
  let s' := ui (final (exec srv ConfirmDeleteChat w)) in
  chats s' = updated /\
  Forall (fun c => id c <> i) (chats s') /\
  (currentChatId (ui w) = Some i ->
     match updated with
     | c :: _ => currentChatId s' = Some (id c)
     | [] => currentChatId s' = None /\ messages s' = []
     end) /\
  (currentChatId (ui w) <> Some i ->
     currentChatId s' = currentChatId (ui w)).
Proof.
  intros Hdel Hi Hwf Hsrv updated s'.
  assert (Hup : ids_nonempty updated) by now apply ids_nonempty_filter.
  subst s'. unfold exec, handler_proc, confirmDeleteChat.
  rewrite Hdel, Hi. cbn. answered Hsrv. fold updated.
  unfold Js.strict_eq.
  destruct (bool_decide (currentChatId (ui w) = Some i)) eqn:Hact.
  - apply bool_decide_eq_true_1 in Hact.
    destruct updated as [|c rest] eqn:Hupd.
    + cbn. repeat split; [constructor | done].
    + apply Forall_cons in Hup as [Hc _]. unfold selectChat. rewrite Hc. cbn.
      unfold Gateway.dispatch.
      assert (Hdrop : Forall (fun c0 => id c0 <> i) (c :: rest)).
      { rewrite <- Hupd. apply filter_drops_id. }
      destruct (srv _ (getHistory (id c))); cbn; repeat split; done.
  - apply bool_decide_eq_false_1 in Hact. cbn.
    repeat split; [apply filter_drops_id | done].
Qed.

Lemma delete_selects_successor_witness :
  let s' := ui (final (exec Sample.up ConfirmDeleteChat
                         (Sample.page "" (Some "A") Sample.sessions
                            (Some "A")))) in
  chats s' = [Sample.chat "B" "Biology"; Sample.chat "C" "Chemistry"] /\
  currentChatId s' = Some "B".
Proof.
  pose proof (delete_selects_successor Sample.up
                (Sample.page "" (Some "A") Sample.sessions (Some "A")) "A")
    as H.
  destruct H as (Hl & _ & Hact & _).
  - reflexivity.
  - reflexivity.
  - repeat constructor.
  - reflexivity.
  - split; [exact Hl | exact (Hact eq_refl)].
Defined.

(** C9.  When the server rejects the delete, the session list, the active
    session id and the view are what they were. *)
Theorem failed_delete_changes_nothing
  (srv : remote) (w : World) (i : string) (e : AxiosError) :
  deleteId (ui w) = Some i ->
  srv _ (deleteChat i) = Rejected e ->
  let s' := ui (final (exec srv ConfirmDeleteChat w)) in
  chats s' = chats (ui w) /\
  currentChatId s' = currentChatId (ui w) /\
  messages s' = messages (ui w).
Proof.
  intros Hdel Hsrv. unfold exec, handler_proc, confirmDeleteChat.
  rewrite Hdel. destruct (Js.truthy i); cbn; [|done].
  answered Hsrv. done.
Qed.

Lemma failed_delete_changes_nothing_witness :
  let w := Sample.page "" (Some "A") Sample.sessions (Some "A") in
  let s' := ui (final (exec (Sample.failing None) ConfirmDeleteChat w)) in
  chats s' = chats (ui w) /\
  currentChatId s' = currentChatId (ui w) /\
  messages s' = messages (ui w).
Proof.
  apply (failed_delete_changes_nothing (Sample.failing None)
           (Sample.page "" (Some "A") Sample.sessions (Some "A")) "A"
           {| err_status := None |});
    reflexivity.
Defined.

(** ** The event loop *)

(** A handler run alone is one schedule of the event loop: start it on an
    idle page and answer the one pending call until none is left. *)
Lemma run_is_a_schedule (srv : remote) (p : proc unit) (w : World) :
  exists n,
    steps (settles srv (replicate n 0)) (parked p w)
    = {| world := final (run srv p w); pending := [] |}.
Proof.
  revert w. induction p as [a|e|a k IH|R c k IH]; intros w.
  - now exists 0.
  - now exists 0.
  - destruct (IH (perform a w)) as [n Hn]. now exists n.
  - destruct (IH (snd (Gateway.dispatch srv c (browser w)))
                (with_browser (fst (Gateway.dispatch srv c (browser w))) w))
      as [n Hn].
    exists (S n). cbn. exact Hn.
Qed.

Lemma exec_is_a_schedule (srv : remote) (h : handler) (w : World) :
  exists n,
    steps (Click h :: settles srv (replicate n 0)) (boot w)
    = {| world := final (exec srv h w); pending := [] |}.
Proof.
  destruct (run_is_a_schedule srv (handler_proc h (ui w)) w) as [n Hn].
  exists n. exact Hn.
Qed.

(** ** Rapid selection and out-of-order history responses *)

Section Rapid_selection.
Context (srv : remote) (hist : string -> list ChatMessage).
Hypothesis srv_history : forall i, srv _ (getHistory i) = Resolved (hist i).

Lemma click_select (sys : Sys) (i : string) :
  Js.truthy i = true ->
  let sys' := step (Click (SelectChat (Some i))) sys in
  pending sys' = pending sys ++ [select_task i] /\
  currentChatId (ui (world sys')) = Some i /\
  messages (ui (world sys')) = [].
Proof.
  intros Hi. cbn. unfold selectChat. rewrite Hi. cbn. done.
Qed.

Lemma clicks_select (ids ids0 : list string) (sys : Sys) :
  Forall (fun i => Js.truthy i = true) ids ->
  pending sys = select_task <$> ids0 ->
  let sys' := steps (clicks ids) sys in
  pending sys' = select_task <$> (ids0 ++ ids) /\
  currentChatId (ui (world sys'))
  = from_option Some (currentChatId (ui (world sys))) (last ids) /\
  (ids <> [] -> messages (ui (world sys')) = []).
Proof.
  intros Hall. revert ids0 sys.
  induction Hall as [|i ids Hi Hall IH]; intros ids0 sys Hpend.
  - cbn. rewrite app_nil_r. done.
  - destruct (click_select sys i Hi) as (Hp & Hc & Hm).
    specialize (IH (ids0 ++ [i]) (step (Click (SelectChat (Some i))) sys)).
    destruct IH as (IHp & IHc & IHm).
    { rewrite Hp, Hpend, fmap_app. done. }
    unfold clicks, steps in *. rewrite fmap_cons. cbn [foldl].
    split; [|split].
    + rewrite IHp, <- app_assoc. done.
    + rewrite IHc, Hc. rewrite last_cons. destruct (last ids); done.
    + intros _. destruct ids as [|j ids']; [exact Hm | apply IHm; done].
Qed.

(** Delivering a history never looks at the current session id. *)
Lemma settle_select (sys : Sys) (ids : list string) (k : nat) :
  pending sys = select_task <$> ids ->
  let sys' := step (Settle k srv) sys in
  match ids !! k with
  | Some i =>
      pending sys' = select_task <$> delete k ids /\
      currentChatId (ui (world sys')) = currentChatId (ui (world sys)) /\
      messages (ui (world sys')) = to_message <$> hist i
  | None => sys' = sys
  end.
Proof.
  intros Hpend. cbn. rewrite Hpend, list_lookup_fmap.
  destruct (ids !! k) as [i|]; cbn; [|done].
  unfold Gateway.dispatch. rewrite srv_history. cbn.
  rewrite app_nil_r, list_fmap_delete. done.
Qed.

Lemma settles_select (ks : list nat) (ids : list string) (sys : Sys) :
  pending sys = select_task <$> ids ->
  let sys' := steps (settles srv ks) sys in
  currentChatId (ui (world sys')) = currentChatId (ui (world sys)) /\
  messages (ui (world sys'))
  = from_option (fun i => to_message <$> hist i) (messages (ui (world sys)))
      (last (delivered ids ks)).
Proof.
  revert ids sys. induction ks as [|k ks IH]; intros ids sys Hpend; [done|].
  unfold settles, steps in *. rewrite fmap_cons. cbn [foldl delivered].
  pose proof (settle_select sys ids k Hpend) as Hk. cbn zeta in Hk.
  destruct (ids !! k) as [i|].
  - destruct Hk as (Hp & Hc & Hm).
    destruct (IH _ _ Hp) as (IHc & IHm). split; [congruence|].
    rewrite IHm, Hm, last_cons. destruct (last _); done.
  - rewrite Hk. apply IH, Hpend.
Qed.

End Rapid_selection.

(** When the fetches are answered in the order of the selections, the
    deliveries are the selections. *)
Lemma delivered_in_order (ids : list string) :
  delivered ids (replicate (length ids) 0) = ids.
Proof. induction ids as [|i ids IH]; cbn; [done | now rewrite IH]. Qed.

(** X27.  When every fetch is answered in the order of the selections,
    the view ends with the history of the last selected session, which is
    the active one. *)
Lemma in_order_delivery_shows_last_selected
  (srv : remote) (hist : string -> list ChatMessage) (w : World)
  (ids : list string) (b : string) :
  (forall i, srv _ (getHistory i) = Resolved (hist i)) ->
  Forall (fun i => Js.truthy i = true) ids ->
  last ids = Some b ->
  let sys := steps (settles srv (replicate (length ids) 0))
               (steps (clicks ids) (boot w)) in
  currentChatId (ui (world sys)) = Some b /\
  messages (ui (world sys)) = to_message <$> hist b.
Proof.
  intros Hsrv Hall Hlast.
  destruct (clicks_select ids [] (boot w) Hall eq_refl) as (Hp & Hc & _).
  destruct (settles_select srv hist Hsrv (replicate (length ids) 0) ids _ Hp)
    as (Hc' & Hm').
  cbn zeta. rewrite Hc', Hc, Hm', delivered_in_order, Hlast. done.
Qed.

(** C2 (as the code has it).  After a burst of selections on an idle page
    whose fetches all resolve, in any order of delivery, the current
    session id is the last selected one, and the view holds the history
    that was delivered last, whichever session it belongs to; before any
    delivery the view is empty.  No delivery is discarded. *)
Theorem view_shows_history_delivered_last
  (srv : remote) (hist : string -> list ChatMessage) (w : World)
  (ids : list string) (ks : list nat) (b : string) :
  (forall i, srv _ (getHistory i) = Resolved (hist i)) ->
  Forall (fun i => Js.truthy i = true) ids ->
  last ids = Some b ->
  let sys := steps (clicks ids ++ settles srv ks) (boot w) in
  currentChatId (ui (world sys)) = Some b /\
  messages (ui (world sys))
  = from_option (fun i => to_message <$> hist i) [] (last (delivered ids ks)).
Proof.
  intros Hsrv Hall Hlast. cbn zeta. unfold steps. rewrite foldl_app.
  fold (steps (clicks ids) (boot w)).
  destruct (clicks_select ids [] (boot w) Hall eq_refl) as (Hp & Hc & Hm).
  fold (steps (settles srv ks) (steps (clicks ids) (boot w))).
  destruct (settles_select srv hist Hsrv ks ids _ Hp) as (Hc' & Hm').
  split.
  - rewrite Hc', Hc, Hlast. done.
  - rewrite Hm', Hm; [done|]. intros ->. discriminate.
Qed.

Lemma view_shows_history_delivered_last_witness :
  let sys := steps (clicks ["A"; "B"] ++ settles Sample.up [1; 0])
               (boot (Sample.page "" None Sample.sessions None)) in
  currentChatId (ui (world sys)) = Some "B" /\
  messages (ui (world sys))
  = [user_message "question in A"; model_message "answer in A"].
Proof.
  apply (view_shows_history_delivered_last Sample.up Sample.history_of
           (Sample.page "" None Sample.sessions None) ["A"; "B"] [1; 0] "B").
  - intros i. reflexivity.
  - repeat constructor.
  - reflexivity.
Defined.

(** C2 (as stated) fails: A is selected, then B; B's history arrives,
    then A's.  Every fetch has completed, B is the current session, and
    the view shows A's history, which differs from B's. *)
Lemma stale_history_overwrites_view :
  let sys := steps Sample.rapid_selection
               (boot (Sample.page "" None Sample.sessions None)) in
  pending sys = [] /\
  currentChatId (ui (world sys)) = Some "B" /\
  messages (ui (world sys)) = to_message <$> Sample.history_of "A" /\
  messages (ui (world sys)) <> to_message <$> Sample.history_of "B".
Proof.
  cbn zeta. split; [reflexivity|]. split; [reflexivity|].
  split; [reflexivity | discriminate].
Qed.

(** ** Credentials on the wire *)

Lemma onRejected_unauthorized_away
  {R : Type} (error : AxiosError) (b : Browser) :
  err_status error = Some 401%Z ->
  pathname b <> "/login" -> pathname b <> "/register" ->
  fst (Gateway.onRejected (R := R) error b)
  = navigate "/login" (removeItem "token" b).
Proof.
  intros Hst Hl Hr. unfold Gateway.onRejected.
  now rewrite Hst, (bool_decide_eq_true_2 _ Hl), (bool_decide_eq_true_2 _ Hr),
    (bool_decide_eq_true_2 _ eq_refl).
Qed.

Lemma onRejected_other {R : Type} (error : AxiosError) (b : Browser) :
  err_status error <> Some 401%Z ->
  fst (Gateway.onRejected (R := R) error b) = b.
Proof.
  intros Hst. unfold Gateway.onRejected.
  now rewrite (bool_decide_eq_false_2 _ Hst).
Qed.

Lemma onRejected_on_login {R : Type} (error : AxiosError) (b : Browser) :
  pathname b = "/login" ->
  fst (Gateway.onRejected (R := R) error b) = b.
Proof.
  intros Hp. unfold Gateway.onRejected. rewrite Hp.
  now destruct (bool_decide (err_status error = Some 401%Z)).
Qed.

(** X1.  With a non-empty token in storage, an outgoing request carries
    the header Authorization: Bearer <token>, and every other header of
    the request is left as it was. *)
Theorem request_carries_stored_token
  (headers : gmap string string) (b : Browser) (t : string) :
  getItem "token" b = Some t ->
  Js.truthy t = true ->
  let h := Request.onRequest headers b in
  h !! "Authorization" = Some (String.append "Bearer " t) /\
  forall k, k <> "Authorization" -> h !! k = headers !! k.
Proof.
  intros Ht Htt. unfold Request.onRequest. rewrite Ht, Htt. cbn zeta.
  split; [apply lookup_insert_eq|].
  intros k Hk. now apply lookup_insert_ne.
Qed.

Lemma request_carries_stored_token_witness :
  Request.onRequest ∅ (Sample.signed_in "/") !! "Authorization"
  = Some "Bearer abc".
Proof.
  apply (request_carries_stored_token ∅ (Sample.signed_in "/") "abc");
    reflexivity.
Defined.

(** X2.  With no token in storage, or an empty one, the request interceptor
    changes nothing: no Authorization header is added and one already on
    the request is kept. *)
Theorem request_without_token_is_untouched
  (headers : gmap string string) (b : Browser) :
  Js.truthy_opt (getItem "token" b) = false ->
  Request.onRequest headers b = headers.
Proof.
  unfold Request.onRequest. destruct (getItem "token" b) as [t|]; cbn; [|done].
  now intros ->.
Qed.

Lemma request_without_token_is_untouched_witness :
  Request.onRequest {[ "Accept" := "json" ]} (Demo.anonymous "/login")
  = {[ "Accept" := "json" ]}.
Proof.
  apply (request_without_token_is_untouched _ (Demo.anonymous "/login")).
  reflexivity.
Defined.

(** X3.  After a 401 answered away from /login and /register, the page is
    signed out: the next request gets no Authorization header from storage
    and the route guard redirects to /login. *)
Theorem unauthorized_then_signed_out
  (srv : remote) (R : Type) (c : api R) (error : AxiosError) (b : Browser)
  (headers : gmap string string) :
  srv R c = Rejected error ->
  err_status error = Some 401%Z ->
  pathname b <> "/login" -> pathname b <> "/register" ->
  let b' := fst (Gateway.dispatch srv c b) in
  Request.onRequest headers b' = headers /\
  ProtectedRoute b' = NavigateTo "/login".
Proof.
  intros Hsrv Hst Hl Hr. unfold Gateway.dispatch. rewrite Hsrv.
  cbn zeta. rewrite (onRejected_unauthorized_away error b Hst Hl Hr).
  unfold Request.onRequest, ProtectedRoute, getItem, navigate, removeItem.
  cbn [localStorage]. rewrite lookup_delete_eq. done.
Qed.

Lemma unauthorized_then_signed_out_witness :
  let b' := fst (Gateway.dispatch (Sample.failing (Some 401%Z))
                   (getHistory "A") (Sample.signed_in "/")) in
  Request.onRequest ∅ b' = ∅ /\ ProtectedRoute b' = NavigateTo "/login".
Proof.
  apply (unauthorized_then_signed_out (Sample.failing (Some 401%Z)) _
           (getHistory "A") {| err_status := Some 401%Z |}
           (Sample.signed_in "/") ∅);
    (reflexivity || discriminate).
Defined.

Lemma other_responses_pass_through_witness :
  Gateway.dispatch (Sample.failing (Some 500%Z)) (getHistory "A")
    (Sample.signed_in "/")
  = (Sample.signed_in "/", Rejected {| err_status := Some 500%Z |}).
Proof.
  apply (other_responses_pass_through (Sample.failing (Some 500%Z)) _
           (getHistory "A") (Sample.signed_in "/")).
  intros e [= <-]. discriminate.
Defined.

(** X5.  Logging out removes the token and nothing else from storage,
    moves to /login, makes the route guard redirect, and leaves later
    requests without an Authorization header of its own. *)
Theorem logout_signs_out (b : Browser) (headers : gmap string string) :
  let b' := handleLogout b in
  pathname b' = "/login" /\
  ProtectedRoute b' = NavigateTo "/login" /\
  Request.onRequest headers b' = headers /\
  forall k, k <> "token" -> getItem k b' = getItem k b.
Proof.
  unfold handleLogout, ProtectedRoute, Request.onRequest, getItem.
  unfold navigate, removeItem. cbn [localStorage pathname].
  rewrite lookup_delete_eq. repeat split.
  intros k Hk. now apply lookup_delete_ne.
Qed.

(** X6.  The login-success flag is consumed once: after the mount effect
    has run, running it again raises no toast and changes nothing, and the
    token is never touched by it. *)
Theorem login_flag_is_one_shot (toast : bool) (b : Browser) :
  let first := loginSuccessEffect toast b in
  loginSuccessEffect false (snd first) = (false, snd first) /\
  getItem "token" (snd first) = getItem "token" b.
Proof.
  unfold loginSuccessEffect.
  destruct (Js.truthy_opt (getItem "loginSuccess" b)) eqn:H; cbn.
  - unfold getItem, removeItem. cbn [localStorage].
    rewrite lookup_delete_eq. split; [done|]. now apply lookup_delete_ne.
  - rewrite H. done.
Qed.

(** ** The login page *)

(** X7.  A login the server accepts with a non-empty token signs the page
    in: the next request carries Bearer <token>, the route guard lets the
    chat through, the page is at /, the one-shot success flag is raised for
    the next mount, and the form shows no error and is no longer busy. *)
Theorem login_then_authorized
  (srv : Login.server) (p : Login.Page) (data : Login.Data)
  (headers : gmap string string) :
  srv (Login.email (Login.form p)) (Login.password (Login.form p))
  = Login.Accepted data ->
  Js.truthy (Login.access_token data) = true ->
  let p' := Login.handleLogin srv p in
  Request.onRequest headers (Login.env p') !! "Authorization"
  = Some (String.append "Bearer " (Login.access_token data)) /\
  ProtectedRoute (Login.env p') = Children /\
  pathname (Login.env p') = "/" /\
  fst (loginSuccessEffect false (Login.env p')) = true /\
  Login.error (Login.form p') = "" /\
  Login.loading (Login.form p') = false.
Proof.
  intros Hsrv Htok. unfold Login.handleLogin, Login.login.
  cbn [Login.email Login.password]. rewrite Hsrv. cbn [fst snd Login.env].
  unfold Request.onRequest, ProtectedRoute, loginSuccessEffect, getItem.
  unfold navigate, setItem. cbn [localStorage pathname].
  rewrite lookup_insert_eq.
  rewrite lookup_insert_ne by discriminate. rewrite lookup_insert_eq.
  cbn [Js.truthy_opt]. rewrite Htok. cbn.
  split; [apply lookup_insert_eq | done].
Qed.

Lemma login_then_authorized_witness :
  let p' := Login.handleLogin Demo.accepts
              {| Login.env := Demo.anonymous "/login";
                 Login.form := Demo.form |} in
  Request.onRequest ∅ (Login.env p') !! "Authorization" = Some "Bearer tok42"
  /\ ProtectedRoute (Login.env p') = Children
  /\ Login.error (Login.form p') = "".
Proof.
  destruct (login_then_authorized Demo.accepts
              {| Login.env := Demo.anonymous "/login";
                 Login.form := Demo.form |}
              {| Login.access_token := "tok42" |} ∅)
    as (Hh & Hg & _ & _ & He & _); [reflexivity | reflexivity |].
  split; [exact Hh|]. split; [exact Hg | exact He].
Defined.

(** X8.  A login the server refuses while the page is at /login, with
    whatever status (401 included), leaves storage and location exactly as
    they were; the form shows the detail sent by the server when there is a
    non-empty one and the text Login failed otherwise, and is no longer
    busy. *)
Theorem refused_login_stays_on_page
  (srv : Login.server) (p : Login.Page) (err : Login.Error) :
  srv (Login.email (Login.form p)) (Login.password (Login.form p))
  = Login.Refused err ->
  pathname (Login.env p) = "/login" ->
  let p' := Login.handleLogin srv p in
  Login.env p' = Login.env p /\
  (forall d, Login.detail err = Some d -> Js.truthy d = true ->
     Login.error (Login.form p') = d) /\
  (Js.truthy_opt (Login.detail err) = false ->
     Login.error (Login.form p') = "Login failed") /\
  Login.loading (Login.form p') = false.
Proof.
  intros Hsrv Hpath. unfold Login.handleLogin, Login.login.
  cbn [Login.email Login.password]. rewrite Hsrv.
  cbn [fst snd Login.env Login.form Login.error Login.loading].
  rewrite (onRejected_on_login _ _ Hpath).
  split; [done|]. unfold Login.message_of. split; [|split; [|done]].
  - intros d -> Hd. now rewrite Hd.
  - destruct (Login.detail err) as [d|]; cbn; [|done]. now intros ->.
Qed.

Lemma refused_login_stays_on_page_witness :
  let p := {| Login.env := Demo.anonymous "/login";
              Login.form := Demo.form |} in
  let p' := Login.handleLogin
              (Demo.refuses (Some 401%Z) (Some "Incorrect password")) p in
  Login.env p' = Login.env p /\
  Login.error (Login.form p') = "Incorrect password".
Proof.
  destruct (refused_login_stays_on_page
              (Demo.refuses (Some 401%Z) (Some "Incorrect password"))
              {| Login.env := Demo.anonymous "/login";
                 Login.form := Demo.form |}
              {| Login.status := Some 401%Z;
                 Login.detail := Some "Incorrect password" |})
    as (Henv & Hd & _); [reflexivity | reflexivity |].
  split; [exact Henv | exact (Hd "Incorrect password" eq_refl eq_refl)].
Defined.

(** ** Mounting the chat page *)

(** X9.  When both [getMe] and [getChats] resolve, the session list is the
    server's list in the server's order, and the page starts on a new chat:
    no session is active and the view is empty, however many sessions were
    listed.  The browser is untouched. *)
Theorem init_lists_sessions_and_opens_new_chat
  (srv : InitServer) (sh : Shell) (u : User) (l : list ChatSession) :
  getMe srv = Resolved u ->
  getChats srv = Resolved l ->
  let sh' := init srv sh in
  chats (ui (page sh')) = l /\
  currentChatId (ui (page sh')) = None /\
  messages (ui (page sh')) = [] /\
  userData sh' = Some u /\
  browser (page sh') = browser (page sh).
Proof.
  intros Hme Hl. unfold init, through. rewrite Hme. cbn. rewrite Hl. done.
Qed.

Lemma init_lists_sessions_and_opens_new_chat_witness :
  let sh' := init Demo.listing (Demo.fresh_shell (Sample.signed_in "/")) in
  chats (ui (page sh')) = Sample.sessions /\
  currentChatId (ui (page sh')) = None.
Proof.
  destruct (init_lists_sessions_and_opens_new_chat Demo.listing
              (Demo.fresh_shell (Sample.signed_in "/"))
              {| full_name := "Ada" |} Sample.sessions)
    as (Hl & Hc & _); [reflexivity | reflexivity |].
  split; [exact Hl | exact Hc].
Defined.

(** The first call of [init] that is rejected, if any. *)
Lemma init_failure_cases (srv : InitServer) (sh : Shell) (e : AxiosError) :
  (getMe srv = Rejected e \/
   (exists u, getMe srv = Resolved u) /\ getChats srv = Rejected e) ->
  page (init srv sh)
  = init_catch e
      (with_browser (fst (Gateway.onRejected (R := unit) e
                            (browser (page sh)))) (page sh)).
Proof.
  unfold init, through. intros [Hme|[[u Hme] Hl]]; rewrite Hme; cbn.
  - done.
  - rewrite Hl. done.
Qed.

(** X10.  When [getMe] or [getChats] is rejected with status 401, the page
    ends signed out at /login, wherever it was, and the chat state is left
    as it was. *)
Theorem init_unauthorized_signs_out
  (srv : InitServer) (sh : Shell) (e : AxiosError) :
  (getMe srv = Rejected e \/
   (exists u, getMe srv = Resolved u) /\ getChats srv = Rejected e) ->
  err_status e = Some 401%Z ->
  let sh' := init srv sh in
  getItem "token" (browser (page sh')) = None /\
  pathname (browser (page sh')) = "/login" /\
  ProtectedRoute (browser (page sh')) = NavigateTo "/login" /\
  ui (page sh') = ui (page sh).
Proof.
  intros Hfail Hst. cbn zeta. rewrite (init_failure_cases srv sh e Hfail).
  unfold init_catch. rewrite Hst, (bool_decide_eq_true_2 _ eq_refl).
  unfold ProtectedRoute, getItem, with_browser, navigate, removeItem.
  cbn [browser ui localStorage pathname]. rewrite lookup_delete_eq. done.
Qed.

Lemma init_unauthorized_signs_out_witness :
  let sh' := init Demo.unauthorized
               (Demo.fresh_shell (Sample.signed_in "/")) in
  getItem "token" (browser (page sh')) = None /\
  pathname (browser (page sh')) = "/login".
Proof.
  destruct (init_unauthorized_signs_out Demo.unauthorized
              (Demo.fresh_shell (Sample.signed_in "/"))
              {| err_status := Some 401%Z |})
    as (Ht & Hp & _); [left; reflexivity | reflexivity |].
  split; [exact Ht | exact Hp].
Defined.

(** X11.  When [getMe] or [getChats] is rejected with any status other than
    401, or with none, nothing is reported and nothing moves: the browser
    and the chat state are exactly as before (the token is kept and the
    page stays where it is). *)
Theorem init_other_failure_is_silent
  (srv : InitServer) (sh : Shell) (e : AxiosError) :
  (getMe srv = Rejected e \/
   (exists u, getMe srv = Resolved u) /\ getChats srv = Rejected e) ->
  err_status e <> Some 401%Z ->
  page (init srv sh) = page sh.
Proof.
  intros Hfail Hst. rewrite (init_failure_cases srv sh e Hfail).
  unfold init_catch. rewrite (bool_decide_eq_false_2 _ Hst).
  rewrite (onRejected_other _ _ Hst). now destruct (page sh).
Qed.

Lemma init_other_failure_is_silent_witness :
  let sh := Demo.fresh_shell (Sample.signed_in "/") in
  page (init {| getMe := Rejected {| err_status := None |};
                getChats := Resolved [] |} sh) = page sh.
Proof.
  apply (init_other_failure_is_silent
           {| getMe := Rejected {| err_status := None |};
              getChats := Resolved [] |}
           (Demo.fresh_shell (Sample.signed_in "/"))
           {| err_status := None |}).
  - left. reflexivity.
  - discriminate.
Defined.



(** ** Handlers under any server *)

(** Case analysis on every answer of the server that the goal depends on. *)
Ltac server_cases :=
  repeat (unfold Gateway.dispatch;
          match goal with
          | |- context [match ?srv ?R ?c with
                        | Resolved _ => _
                        | Rejected _ => _
                        end] =>
              is_var srv; destruct (srv R c) eqn:?; cbn
          end).

(** X13.  No handler ever rejects: whatever the server answers, the promise
    of [handleSend], [selectChat], [handleNewChat], [handleDeleteClick] and
    [confirmDeleteChat] resolves; every remote failure is caught inside. *)
Theorem handlers_never_reject (srv : remote) (h : handler) (w : World) :
  settled (exec srv h w) = Resolved tt.
Proof.
  unfold exec. destruct h as [|x| |i|]; cbn [handler_proc].
  - unfold handleSend.
    destruct (Js.truthy (Js.trim (input (ui w)))); [|reflexivity].
    destruct (currentChatId (ui w)) as [i|]; [destruct (Js.truthy i)|];
      cbn; server_cases; reflexivity.
  - apply selectChat_never_rejects.
  - reflexivity.
  - reflexivity.
  - unfold confirmDeleteChat.
    destruct (deleteId (ui w)) as [i|]; [|reflexivity].
    destruct (Js.truthy i); [|reflexivity]. cbn. server_cases; [|reflexivity].
    destruct (Js.strict_eq (currentChatId (ui w)) i); [|reflexivity].
    destruct (filter _ (chats (ui w))) as [|c rest]; [reflexivity|].
    unfold selectChat. destruct (Js.truthy (id c)); [|reflexivity].
    cbn. server_cases; reflexivity.
Qed.

(** X14.  Whatever the server answers to a send with non-blank input, the
    view ends as the old view, the user's message, and exactly one
    model-role message; the input is cleared and the loading flag is
    back to false. *)
Theorem send_always_settles (srv : remote) (w : World) :
  Js.truthy (Js.trim (input (ui w))) = true ->
  let s' := ui (final (exec srv HandleSend w)) in
  (exists m, role m = model /\
     messages s' = messages (ui w) ++ [user_message (input (ui w)); m]) /\
  input s' = "" /\
  loading s' = false.
Proof.
  intros Hin. unfold exec, handler_proc, handleSend. rewrite Hin.
  destruct (currentChatId (ui w)) as [i|]; [destruct (Js.truthy i)|];
    cbn; server_cases;
    (split; [eexists; split; [|rewrite <- app_assoc; reflexivity];
             reflexivity | done]).
Qed.

Lemma send_always_settles_witness :
  let s' := ui (final (exec (Sample.failing (Some 500%Z)) HandleSend
                         (Sample.page "Hello" None [] None))) in
  input s' = "" /\ loading s' = false.
Proof.
  destruct (send_always_settles (Sample.failing (Some 500%Z))
              (Sample.page "Hello" None [] None)) as (_ & Hi & Hl);
    [reflexivity|].
  split; [exact Hi | exact Hl].
Defined.

(** X15.  A send with an active session issues exactly one call,
    [sendMessage] for that session with the input as typed (not trimmed),
    and never [createChat]; the session list and the active session id are
    left as they were, whatever the answer. *)
Theorem send_with_session_only_sends
  (srv : remote) (w : World) (i : string) :
  currentChatId (ui w) = Some i ->
  Js.truthy i = true ->
  Js.truthy (Js.trim (input (ui w))) = true ->
  let r := exec srv HandleSend w in
  trace r = [Call (sendMessage i (input (ui w)))] /\
  chats (ui (final r)) = chats (ui w) /\
  currentChatId (ui (final r)) = Some i.
Proof.
  intros Hcur Hi Hin. unfold exec, handler_proc, handleSend.
  rewrite Hin, Hcur, Hi. cbn. server_cases; now rewrite Hcur.
Qed.

Lemma send_with_session_only_sends_witness :
  trace (exec Sample.up HandleSend
           (Sample.page "  Hello " (Some "A") Sample.sessions None))
  = [Call (sendMessage "A" "  Hello ")].
Proof.
  apply (send_with_session_only_sends Sample.up
           (Sample.page "  Hello " (Some "A") Sample.sessions None) "A");
    reflexivity.
Defined.

Lemma select_falsy_is_noop_witness :
  let w := Sample.page "" (Some "A") Sample.sessions None in
  exec Sample.up (SelectChat (Some "")) w
  = {| final := w; trace := []; settled := Resolved tt |}.
Proof.
  apply (select_falsy_is_noop Sample.up
           (Sample.page "" (Some "A") Sample.sessions None) (Some "")).
  reflexivity.
Defined.

(** X17.  Confirming a delete when no delete id is pending (null, or the
    empty string) does nothing: no call is issued and the page is as it
    was. *)
Theorem confirm_without_pending_delete_is_noop (srv : remote) (w : World) :
  Js.truthy_opt (deleteId (ui w)) = false ->
  exec srv ConfirmDeleteChat w
  = {| final := w; trace := []; settled := Resolved tt |}.
Proof.
  intros Hd. unfold exec, handler_proc, confirmDeleteChat.
  destruct (deleteId (ui w)) as [i|]; [|reflexivity].
  cbn in Hd. now rewrite Hd.
Qed.

Lemma confirm_without_pending_delete_is_noop_witness :
  let w := Sample.page "" (Some "A") Sample.sessions None in
  exec Sample.up ConfirmDeleteChat w
  = {| final := w; trace := []; settled := Resolved tt |}.
Proof.
  apply (confirm_without_pending_delete_is_noop Sample.up
           (Sample.page "" (Some "A") Sample.sessions None)).
  reflexivity.
Defined.

(** ** The registry keeps its ids distinct *)

Lemma filter_keeps_ids_distinct (i : string) (l : list ChatSession) :
  NoDup (id <$> l) ->
  NoDup (id <$> filter (fun c : ChatSession => id c <> i) l).
Proof.
  intros Hnd. eapply sublist_NoDup; [exact Hnd|].
  apply fmap_sublist, sublist_filter.
Qed.

Lemma retitle_keeps_id (newChat : ChatSession) (data : SendData) :
  id (retitle newChat data) = id newChat.
Proof.
  unfold retitle. destruct (sd_title data) as [t|]; [|done].
  now destruct (Js.truthy t).
Qed.

(** X18.  If the ids of the session list are pairwise distinct, and the
    id the server would give to a new session is not in the list, then the
    ids are still pairwise distinct after any handler has run, whatever
    the server answers. *)
Theorem registry_ids_stay_distinct (srv : remote) (h : handler) (w : World) :
  NoDup (id <$> chats (ui w)) ->
  (forall newChat, srv _ (createChat "New Chat") = Resolved newChat ->
     id newChat ∉ id <$> chats (ui w)) ->
  NoDup (id <$> chats (ui (final (exec srv h w)))).
Proof.
  intros Hnd Hfresh. unfold exec. destruct h as [|x| |i|]; cbn [handler_proc].
  - unfold handleSend.
    destruct (Js.truthy (Js.trim (input (ui w)))); [|exact Hnd].
    assert (Hnew : forall newChat data,
               srv _ (createChat "New Chat") = Resolved newChat ->
               NoDup (id <$> retitle newChat data :: chats (ui w))).
    { intros newChat data Hc. rewrite fmap_cons, retitle_keeps_id.
      apply NoDup_cons. split; [now apply Hfresh | exact Hnd]. }
    destruct (currentChatId (ui w)) as [i|]; [destruct (Js.truthy i)|];
      cbn; server_cases; eauto.
  - destruct x as [i|]; [|exact Hnd]. unfold selectChat.
    destruct (Js.truthy i); [|exact Hnd]. cbn. server_cases; exact Hnd.
  - exact Hnd.
  - exact Hnd.
  - unfold confirmDeleteChat.
    destruct (deleteId (ui w)) as [i|]; [|exact Hnd].
    destruct (Js.truthy i); [|exact Hnd]. cbn. server_cases; [|exact Hnd].
    pose proof (filter_keeps_ids_distinct i _ Hnd) as Hup.
    destruct (Js.strict_eq (currentChatId (ui w)) i); [|exact Hup].
    destruct (filter _ (chats (ui w))) as [|c rest] eqn:Hf; [exact Hup|].
    unfold selectChat. destruct (Js.truthy (id c)); [|exact Hup].
    cbn. server_cases; exact Hup.
Qed.

Lemma registry_ids_stay_distinct_witness :
  NoDup (id <$> chats (ui (final (exec Sample.up HandleSend
                                    (Sample.page "Hello" None
                                       Sample.sessions None))))).
Proof.
  apply (registry_ids_stay_distinct Sample.up HandleSend
           (Sample.page "Hello" None Sample.sessions None)).
  - refine (bool_decide_unpack _ _). vm_compute. exact I.
  - intros newChat [= <-]. refine (bool_decide_unpack _ _). vm_compute.
    exact I.
Defined.

(** ** Sends in the event loop *)

(** X19.  A click on send with non-blank input shows the user's message at
    once, before any answer: the message is appended, the input is cleared,
    the loading flag is raised, and exactly one call is parked, [createChat]
    when no session is active and [sendMessage] for the active session
    otherwise. *)
Theorem click_send_appends_before_any_answer (sys : Sys) :
  let s := ui (world sys) in
  Js.truthy (Js.trim (input s)) = true ->
  let sys' := step (Click HandleSend) sys in
  messages (ui (world sys')) = messages s ++ [user_message (input s)] /\
  input (ui (world sys')) = "" /\
  loading (ui (world sys')) = true /\
  exists t,
    pending sys' = pending sys ++ [t] /\
    issued t = match currentChatId s with
               | Some i => if Js.truthy i
                           then Call (sendMessage i (input s))
                           else Call (createChat "New Chat")
               | None => Call (createChat "New Chat")
               end.
Proof.
  intros s Hin. unfold s in *. cbn [step handler_proc]. unfold handleSend.
  rewrite Hin.
  destruct (currentChatId (ui (world sys))) as [i|];
    [destruct (Js.truthy i)|]; cbn;
    (split; [done|]; split; [done|]; split; [done|];
     eexists; split; reflexivity).
Qed.

Lemma click_send_appends_before_any_answer_witness :
  let sys' := step (Click HandleSend)
                (boot (Sample.page "Hello" None [] None)) in
  messages (ui (world sys'))
  = [user_message "earlier"; model_message "before"; user_message "Hello"]
  /\ loading (ui (world sys')) = true.
Proof.
  destruct (click_send_appends_before_any_answer
              (boot (Sample.page "Hello" None [] None)))
    as (Hm & _ & Hl & _); [reflexivity|].
  split; [exact Hm | exact Hl].
Defined.

(** X20.  A reply that arrives after the user has switched to another
    session is appended to the view of the session now shown: send in
    session a, select b, b's history arrives, then a's reply arrives; the
    view ends as b's history followed by the reply to a. *)
Theorem late_reply_lands_in_current_view
  (srv : remote) (w : World) (a b : string) (data : SendData)
  (hb : list ChatMessage) :
  currentChatId (ui w) = Some a ->
  Js.truthy a = true -> Js.truthy b = true ->
  Js.truthy (Js.trim (input (ui w))) = true ->
  srv _ (sendMessage a (input (ui w))) = Resolved data ->
  srv _ (getHistory b) = Resolved hb ->
  let sys := steps [Click HandleSend; Click (SelectChat (Some b));
                    Settle 1 srv; Settle 0 srv] (boot w) in
  pending sys = [] /\
  currentChatId (ui (world sys)) = Some b /\
  messages (ui (world sys))
  = (to_message <$> hb) ++ [model_message (response data)].
Proof.
  intros Hcur Ha Hb Hin Hsend Hhist. unfold steps, boot. cbn [foldl].
  cbn [step handler_proc world pending]. unfold handleSend, selectChat.
  rewrite Hin, Hcur, Ha, Hb. cbn.
  unfold Gateway.dispatch. rewrite Hhist. cbn.
  unfold Gateway.dispatch. rewrite Hsend. cbn. done.
Qed.

Lemma late_reply_lands_in_current_view_witness :
  let sys := steps [Click HandleSend; Click (SelectChat (Some "B"));
                    Settle 1 Sample.up; Settle 0 Sample.up]
               (boot (Sample.page "Hello" (Some "A") Sample.sessions None)) in
  currentChatId (ui (world sys)) = Some "B" /\
  messages (ui (world sys))
  = [user_message "question in B"; model_message "reply"].
Proof.
  destruct (late_reply_lands_in_current_view Sample.up
              (Sample.page "Hello" (Some "A") Sample.sessions None) "A" "B"
              {| response := "reply"; chat_id := "A";
                 sd_title := Some "Greetings" |}
              (Sample.history_of "B"))
    as (_ & Hc & Hm); try reflexivity.
  split; [exact Hc | exact Hm].
Defined.

(** ** Sends after a session was provisioned *)

Lemma provisioning_sets_current
  (srv : remote) (w : World) (newChat : ChatSession) :
  Js.truthy_opt (currentChatId (ui w)) = false ->
  Js.truthy (Js.trim (input (ui w))) = true ->
  srv _ (createChat "New Chat") = Resolved newChat ->
  currentChatId (ui (final (exec srv HandleSend w))) = Some (id newChat).
Proof.
  intros Hcur Hin Hcreate. unfold exec, handler_proc, handleSend.
  rewrite Hin.
  destruct (currentChatId (ui w)) as [i|]; cbn in Hcur;
    [rewrite Hcur|]; cbn; answered Hcreate; server_cases; reflexivity.
Qed.

(** X21.  Once a send has provisioned a session, the next send reuses it:
    whether or not the first [sendMessage] succeeded, the next send with
    non-blank text issues exactly one call, [sendMessage] for the
    provisioned id, and no second [createChat]. *)
Theorem next_send_reuses_provisioned_session
  (srv srv' : remote) (w : World) (newChat : ChatSession) (text : string) :
  Js.truthy_opt (currentChatId (ui w)) = false ->
  Js.truthy (Js.trim (input (ui w))) = true ->
  srv _ (createChat "New Chat") = Resolved newChat ->
  Js.truthy (id newChat) = true ->
  Js.truthy (Js.trim text) = true ->
  let w1 := final (exec srv HandleSend w) in
  trace (exec srv' HandleSend (handleInputResize text w1))
  = [Call (sendMessage (id newChat) text)].
Proof.
  intros Hcur Hin Hcreate Hid Htext w1.
  pose proof (provisioning_sets_current srv w newChat Hcur Hin Hcreate) as H1.
  fold w1 in H1. unfold exec, handler_proc, handleSend, handleInputResize.
  cbn [perform ui set_state input currentChatId chats].
  rewrite Htext, H1, Hid. cbn. server_cases; reflexivity.
Qed.

Lemma next_send_reuses_provisioned_session_witness :
  let w1 := final (exec Sample.creates_only HandleSend
                     (Sample.page "Hello" None [] None)) in
  trace (exec Sample.up HandleSend (handleInputResize "Again" w1))
  = [Call (sendMessage "S1" "Again")].
Proof.
  apply (next_send_reuses_provisioned_session Sample.creates_only Sample.up
           (Sample.page "Hello" None [] None)
           (Sample.chat "S1" "New Chat") "Again");
    reflexivity.
Defined.

Lemma find_session_none (x : option string) (l : list ChatSession) :
  (forall i, x = Some i -> i ∉ id <$> l) ->
  List.find (fun c => Js.strict_eq x (id c)) l = None.
Proof.
  intros Hx. induction l as [|c l IH]; [done|]. cbn [List.find].
  unfold Js.strict_eq at 1. rewrite bool_decide_eq_false_2.
  - apply IH. intros i Hi Hin. apply (Hx i Hi). rewrite fmap_cons.
    apply elem_of_cons. now right.
  - intros Heq. apply (Hx _ Heq). rewrite fmap_cons.
    apply elem_of_cons. now left.
Qed.

(** X22.  When [createChat] resolves and the [sendMessage] that follows is
    rejected, the new session is the active one but is not put in the
    session list; if its id is not in the list, the header falls back to
    Study Companion. *)
Theorem unsent_new_session_is_active_but_unlisted
  (srv : remote) (w : World) (newChat : ChatSession) (e : AxiosError) :
  Js.truthy_opt (currentChatId (ui w)) = false ->
  Js.truthy (Js.trim (input (ui w))) = true ->
  srv _ (createChat "New Chat") = Resolved newChat ->
  srv _ (sendMessage (id newChat) (input (ui w))) = Rejected e ->
  let s' := ui (final (exec srv HandleSend w)) in
  currentChatId s' = Some (id newChat) /\
  chats s' = chats (ui w) /\
  (id newChat ∉ id <$> chats (ui w) -> header_title s' = "Study Companion").
Proof.
  intros Hcur Hin Hcreate Hsend s'.
  assert (Hs : currentChatId s' = Some (id newChat) /\ chats s' = chats (ui w)).
  { subst s'. unfold exec, handler_proc, handleSend. rewrite Hin.
    destruct (currentChatId (ui w)) as [i|]; cbn in Hcur;
      [rewrite Hcur|]; cbn; answered Hcreate; answered Hsend; done. }
  destruct Hs as [Hc Hl]. split; [exact Hc|]. split; [exact Hl|].
  intros Hfresh. unfold header_title. rewrite Hc, Hl.
  rewrite find_session_none; [done|]. now intros i [= <-].
Qed.

Lemma unsent_new_session_is_active_but_unlisted_witness :
  let s' := ui (final (exec Sample.creates_only HandleSend
                         (Sample.page "Hello" None Sample.sessions None))) in
  currentChatId s' = Some "S1" /\
  chats s' = Sample.sessions /\
  header_title s' = "Study Companion".
Proof.
  destruct (unsent_new_session_is_active_but_unlisted Sample.creates_only
              (Sample.page "Hello" None Sample.sessions None)
              (Sample.chat "S1" "New Chat") {| err_status := None |})
    as (Hc & Hl & Hh); try reflexivity.
  split; [exact Hc|]. split; [exact Hl|]. apply Hh.
  refine (bool_decide_unpack _ _). vm_compute. exact I.
Defined.

(** X23.  After a send that provisions a session and succeeds with a
    response carrying a non-empty title, the header shows that title. *)
Theorem header_shows_new_session_title
  (srv : remote) (w : World) (newChat : ChatSession) (data : SendData)
  (t : string) :
  Js.truthy_opt (currentChatId (ui w)) = false ->
  Js.truthy (Js.trim (input (ui w))) = true ->
  srv _ (createChat "New Chat") = Resolved newChat ->
  srv _ (sendMessage (id newChat) (input (ui w))) = Resolved data ->
  sd_title data = Some t -> Js.truthy t = true ->
  header_title (ui (final (exec srv HandleSend w))) = t.
Proof.
  intros Hcur Hin Hcreate Hsend Ht Htt.
  unfold exec, handler_proc, handleSend. rewrite Hin.
  destruct (currentChatId (ui w)) as [i|]; cbn in Hcur;
    [rewrite Hcur|]; cbn; answered Hcreate; answered Hsend;
    unfold header_title; cbn [currentChatId chats List.find];
    unfold Js.strict_eq; rewrite retitle_keeps_id;
    rewrite (bool_decide_eq_true_2 _ eq_refl);
    unfold retitle; rewrite Ht, Htt; cbn [title]; now rewrite Htt.
Qed.

Lemma header_shows_new_session_title_witness :
  header_title (ui (final (exec Sample.up HandleSend
                             (Sample.page "Hello" None Sample.sessions None))))
  = "Greetings".
Proof.
  apply (header_shows_new_session_title Sample.up
           (Sample.page "Hello" None Sample.sessions None)
           (Sample.chat "S1" "New Chat")
           {| response := "reply"; chat_id := "S1";
              sd_title := Some "Greetings" |} "Greetings");
    reflexivity.
Defined.

(** ** Blank input *)

Lemma trimEnd_empty_iff_blank (s : string) :
  Js.trimEnd s = "" <-> blank s = true.
Proof.
  unfold blank. induction s as [|a s IH]; [done|].
  cbn [Js.trimEnd list_ascii_of_string forallb].
  destruct (Js.isWhiteSpace a); cbn [andb].
  - destruct (Js.trimEnd s) eqn:Ht; cbn [Js.isEmpty].
    + split; [intros _; now apply IH | done].
    + split; [done|]. intros Hb. apply IH in Hb. discriminate.
  - split; discriminate.
Qed.

Lemma blank_trimStart (s : string) : blank (Js.trimStart s) = blank s.
Proof.
  unfold blank. induction s as [|a s IH]; [done|].
  cbn [Js.trimStart]. destruct (Js.isWhiteSpace a) eqn:Ha; [|done].
  cbn [list_ascii_of_string forallb]. now rewrite Ha.
Qed.

Lemma trim_empty_iff_blank (s : string) : Js.trim s = "" <-> blank s = true.
Proof.
  unfold Js.trim. rewrite trimEnd_empty_iff_blank. now rewrite blank_trimStart.
Qed.

Lemma send_issues_a_call (srv : remote) (w : World) :
  Js.truthy (Js.trim (input (ui w))) = true ->
  trace (exec srv HandleSend w) <> [].
Proof.
  intros Hin. unfold exec, handler_proc, handleSend. rewrite Hin.
  destruct (currentChatId (ui w)) as [i|]; [destruct (Js.truthy i)|];
    cbn; discriminate.
Qed.


(** ** Deleting a session that is not shown *)

(** X25.  Choosing a session for deletion and confirming, when that session
    is not the active one, issues the delete call and nothing else: no
    history is fetched, and the view and the active session id stay as
    they were, whatever the server answers; the pending delete id is
    cleared. *)
Theorem delete_of_inactive_session_keeps_view
  (srv : remote) (w : World) (i : string) :
  Js.truthy i = true ->
  currentChatId (ui w) <> Some i ->
  let w1 := final (exec srv (HandleDeleteClick i) w) in
  let r := exec srv ConfirmDeleteChat w1 in
  trace r = [Call (deleteChat i)] /\
  messages (ui (final r)) = messages (ui w) /\
  currentChatId (ui (final r)) = currentChatId (ui w) /\
  deleteId (ui (final r)) = None.
Proof.
  intros Hi Hcur. unfold exec, handler_proc, handleDeleteClick.
  unfold confirmDeleteChat. cbn. rewrite Hi. cbn. unfold Js.strict_eq.
  rewrite (bool_decide_eq_false_2 _ Hcur). server_cases; done.
Qed.

Lemma delete_of_inactive_session_keeps_view_witness :
  let w := Sample.page "" (Some "A") Sample.sessions None in
  let r := exec Sample.up ConfirmDeleteChat
             (final (exec Sample.up (HandleDeleteClick "B") w)) in
  trace r = [Call (deleteChat "B")] /\
  messages (ui (final r)) = messages (ui w).
Proof.
  destruct (delete_of_inactive_session_keeps_view Sample.up
              (Sample.page "" (Some "A") Sample.sessions None) "B")
    as (Ht & Hm & _); [reflexivity | discriminate |].
  split; [exact Ht | exact Hm].
Defined.

Lemma in_order_delivery_shows_last_selected_witness :
  let sys := steps (settles Sample.up (replicate 2 0))
               (steps (clicks ["A"; "B"])
                  (boot (Sample.page "" None Sample.sessions None))) in
  currentChatId (ui (world sys)) = Some "B" /\
  messages (ui (world sys)) = [user_message "question in B"].
Proof.
  apply (in_order_delivery_shows_last_selected Sample.up Sample.history_of
           (Sample.page "" None Sample.sessions None) ["A"; "B"] "B").
  - intros i. reflexivity.
  - repeat constructor.
  - reflexivity.
Defined.

(** ** Keyboard *)

(** X26.  A key press reaches the server exactly when it is Enter without
    Shift on a non-blank input; Shift+Enter, any other key, and Enter on a
    blank input issue no call. *)
Theorem keydown_sends_exactly_on_plain_enter
  (e : KeyboardEvent) (srv : remote) (w : World) :
  trace (snd (handleKeyDown e srv w)) <> []
  <-> key e = "Enter" /\ shiftKey e = false /\ blank (input (ui w)) = false.
Proof.
  unfold handleKeyDown.
  destruct (bool_decide (key e = "Enter")) eqn:Hk;
    [apply bool_decide_eq_true_1 in Hk | apply bool_decide_eq_false_1 in Hk].
  - destruct (shiftKey e); cbn [negb snd].
    + split; [done | now intros (_ & ? & _)].
    + destruct (blank (input (ui w))) eqn:Hb.
      * apply trim_empty_iff_blank in Hb.
        unfold exec, handler_proc, handleSend. rewrite Hb. cbn.
        split; [done | now intros (_ & _ & ?)].
      * split; [done|]. intros _. apply send_issues_a_call.
        unfold Js.truthy. destruct (Js.trim (input (ui w))) eqn:Ht; [|done].
        apply trim_empty_iff_blank in Ht. congruence.
  - cbn. split; [done | now intros (? & _)].
Qed.
